(** * realtime.c — the Realtime portal bridging sandboxed callers to RealtimeKit

    A shallow embedding of [src/realtime.c] (xdg-desktop-portal): the three
    D-Bus method handlers of [org.freedesktop.portal.Realtime], their
    completion callbacks and the pid-mapping helper.

    The handlers are effectful C: they call into the application-info
    subsystem, queue an asynchronous call on the RealtimeKit proxy and
    complete the inbound method invocation.  The embedding runs them in a
    state-and-failure monad over a [World] that records, in order, every
    observable effect (the log) and the proxy calls whose callback has not
    run yet (the pending queue). *)

From Stdlib Require Import ZArith List String Ascii Bool Lia.
From ExtLib Require Import Structures.Monad Structures.MonadState.
From ExtLib Require Import Data.Monads.StateMonad Data.Monads.OptionMonad.
Import ListNotations.
Import MonadNotation.
Local Open Scope monad_scope.
Local Open Scope Z_scope.

#[local] Existing Instance Monad_stateT.

(** ** GLib: errors, variants, variadic packing *)

Module GLib.

(** Error domains (GQuark).  Only the portal's own domain is named by
    realtime.c; every other domain is carried by its quark string. *)
Inductive GQuark :=
| XDG_DESKTOP_PORTAL_ERROR
| G_QUARK (name : string).

(** Error codes.  realtime.c names one code, whose numeric value is declared
    in xdp-utils.h; any other code is carried as its integer. *)
Inductive GErrorCode :=
| XDG_DESKTOP_PORTAL_ERROR_FAILED
| G_ERROR_CODE (n : Z).

Record GError := mkGError {
  domain : GQuark;
  code : GErrorCode;
  message : string
}.

(** A fallible GLib call: the [gboolean]/pointer result together with the
    [GError **] out-parameter, which is set exactly when the call fails. *)
Inductive gresult (A : Type) :=
| GOk (a : A)
| GErr (error : GError).
Arguments GOk {A} a.
Arguments GErr {A} error.

Definition g_error_new_literal (d : GQuark) (c : GErrorCode) (msg : string) : GError :=
  {| domain := d; code := c; message := msg |}.

(** [g_prefix_error (&error, prefix)] with a prefix free of conversions. *)
Definition g_prefix_error (error : GError) (prefix : string) : GError :=
  {| domain := domain error; code := code error;
     message := String.append prefix (message error) |}.

(** The D-Bus values realtime.c builds or inspects. *)
#[local] Set Warnings "-register-all".
Inductive GVariant :=
| GV_boolean (b : bool)
| GV_int32 (n : Z)
| GV_uint32 (n : Z)
| GV_int64 (n : Z)
| GV_uint64 (n : Z)
| GV_string (s : string)
| GV_variant (boxed : GVariant)
| GV_tuple (children : list GVariant).

Inductive GVariantType :=
| G_VARIANT_TYPE_INT32
| G_VARIANT_TYPE_INT64.

Definition g_variant_is_of_type (value : GVariant) (type : GVariantType) : bool :=
  match value, type with
  | GV_int32 _, G_VARIANT_TYPE_INT32 => true
  | GV_int64 _, G_VARIANT_TYPE_INT64 => true
  | _, _ => false
  end.

Definition g_variant_get_int64 (value : GVariant) : option Z :=
  match value with GV_int64 n => Some n | _ => None end.

Definition g_variant_get_int32 (value : GVariant) : option Z :=
  match value with GV_int32 n => Some n | _ => None end.

(** [g_variant_get_child (value, index, "v", &child)]: the child at [index]
    of a tuple, unboxed from its variant.  Any other shape breaks the
    function's documented precondition and yields no result. *)
Definition g_variant_get_child_v (value : GVariant) (index : nat) : option GVariant :=
  match value with
  | GV_tuple children =>
      match nth_error children index with
      | Some (GV_variant boxed) => Some boxed
      | _ => None
      end
  | _ => None
  end.

(** A C argument as it is handed to a variadic function, after the default
    promotions, tagged with its C type. *)
Inductive VArg :=
| VA_int32 (z : Z)      (* int, gint32, pid_t *)
| VA_uint32 (z : Z)     (* guint32 *)
| VA_int64 (z : Z)      (* gint64 *)
| VA_uint64 (z : Z)     (* guint64 *)
| VA_str (s : string).  (* const char * *)

(** How one format character reads its variadic slot.  "u" reads 32 bits as
    unsigned, so a signed argument arrives as its two's-complement pattern.
    "t" reads a 64-bit slot; a 32-bit [int] argument occupies the low half
    of that slot and the high half is taken as zero (the LP64 calling
    conventions load it with a 32-bit move). *)
Definition va_leaf (c : ascii) (a : VArg) : option GVariant :=
  match c, a with
  | "t"%char, VA_uint64 z => Some (GV_uint64 z)
  | "t"%char, VA_int32 z => Some (GV_uint64 (z mod 2 ^ 32))
  | "u"%char, VA_uint32 z => Some (GV_uint32 z)
  | "u"%char, VA_int32 z => Some (GV_uint32 (z mod 2 ^ 32))
  | "x"%char, VA_int64 z => Some (GV_int64 z)
  | "s"%char, VA_str s => Some (GV_string s)
  | _, _ => None
  end.

Fixpoint va_items (format : string) (args : list VArg) : option (list GVariant) :=
  match format with
  | EmptyString => None
  | String ")" EmptyString =>
      match args with [] => Some [] | _ :: _ => None end
  | String c format' =>
      match args with
      | [] => None
      | a :: args' =>
          match va_leaf c a, va_items format' args' with
          | Some v, Some vs => Some (v :: vs)
          | _, _ => None
          end
      end
  end.

(** [g_variant_new (format, ...)] for the flat tuple formats realtime.c uses:
    "()", "(x)", "(ss)" and "(ttu)". *)
Definition g_variant_new (format : string) (args : list VArg) : option GVariant :=
  match format with
  | String "(" items => option_map GV_tuple (va_items items args)
  | _ => None
  end.

End GLib.

Export GLib.

(** ** The portal's collaborators: application info and the event record *)

Module Portal.

(** Conversion of a caller-supplied 64-bit value to [pid_t], a signed 32-bit
    integer, as [pid_t pids[1] = { process }] performs it: reduction modulo
    2^32 into [-2^31, 2^31), the result GCC and Clang define for a value out
    of range. *)
Definition to_pid_t (x : Z) : Z := (x + 2 ^ 31) mod 2 ^ 32 - 2 ^ 31.

(** [XdpAppInfo]: what the identity subsystem knows about a caller.
    [xai_map_pid] is the outcome [xdg_app_info_map_pids] would have on a
    one-element pid array holding the given pid: the pid written in place,
    or the error it sets. *)
Record XdpAppInfo := mkXdpAppInfo {
  xai_is_host : bool;
  xai_map_pid : Z -> gresult Z
}.

(** An inbound method invocation together with the caller it belongs to. *)
Record GDBusMethodInvocation := mkInvocation {
  inv_id : nat;
  inv_app_info : XdpAppInfo
}.

Record Request := mkRequest {
  app_info : XdpAppInfo
}.

Definition request_from_invocation (invocation : GDBusMethodInvocation) : Request :=
  {| app_info := inv_app_info invocation |}.

(** The two [GAsyncReadyCallback]s of realtime.c. *)
Inductive Callback :=
| cb_on_call_ready
| cb_on_get_property_ready.

(** One call queued on the RealtimeKit proxy by [g_dbus_proxy_call]. *)
Record ProxyCall := mkProxyCall {
  pc_method : string;
  pc_parameters : GVariant;
  pc_callback : Callback;
  pc_user_data : GDBusMethodInvocation
}.

Inductive Event :=
| EvMapPids (pid : Z)
| EvWarning (msg : string)
| EvProxyCall (call : ProxyCall)
| EvReturnGError (invocation : nat) (error : GError)
| EvReturnValue (invocation : nat) (value : GVariant).

Record World := mkWorld {
  w_log : list Event;
  w_pending : list ProxyCall
}.

(** State over [World]; [None] is a broken GLib precondition. *)
Definition GIO := stateT World option.

Definition emit (ev : Event) : GIO unit :=
  w <- get ;;
  put {| w_log := w_log w ++ [ev]; w_pending := w_pending w |}.

Definition g_lift {A : Type} (o : option A) : GIO A :=
  mkStateT (fun w => match o with Some a => Some (a, w) | None => None end).

Definition g_warning (msg : string) : GIO unit := emit (EvWarning msg).

Definition xdp_app_info_is_host (app : XdpAppInfo) : bool := xai_is_host app.

Definition xdg_app_info_map_pids (app : XdpAppInfo) (pid : Z) : GIO (gresult Z) :=
  emit (EvMapPids pid) ;;
  ret (xai_map_pid app pid).

Definition g_dbus_method_invocation_return_gerror
    (invocation : GDBusMethodInvocation) (error : GError) : GIO unit :=
  emit (EvReturnGError (inv_id invocation) error).

Definition g_dbus_method_invocation_return_value
    (invocation : GDBusMethodInvocation) (value : GVariant) : GIO unit :=
  emit (EvReturnValue (inv_id invocation) value).

(** [g_dbus_proxy_call]: the call goes out and its callback is queued; the
    function returns at once. *)
Definition g_dbus_proxy_call (method : string) (parameters : GVariant)
    (callback : Callback) (user_data : GDBusMethodInvocation) : GIO unit :=
  let call := {| pc_method := method; pc_parameters := parameters;
                 pc_callback := callback; pc_user_data := user_data |} in
  w <- get ;;
  put {| w_log := w_log w ++ [EvProxyCall call];
         w_pending := w_pending w ++ [call] |}.

End Portal.

Export Portal.

(** ** realtime.c *)

Module Realtime.

(** The methods of the exported interface, as [realtime_iface_init] wires
    them, with the arguments the D-Bus skeleton decodes: [guint64] process
    and thread, [guint32] or [gint32] priority, a property name. *)
Inductive Method :=
| MakeThreadRealtimeWithPID (process thread priority : Z)
| MakeThreadHighPriorityWithPID (process thread priority : Z)
| GetProperty (property_name : string).

(** [map_pid_if_needed (app_info, pid, &error)].  The result carries the
    pid array's element after the call, or the error set. *)
Definition map_pid_if_needed (app_info : XdpAppInfo) (pid : Z) : GIO (gresult Z) :=
  if negb (xdp_app_info_is_host app_info) then
    r <- xdg_app_info_map_pids app_info pid ;;
    match r with
    | GErr error =>
        let error := g_prefix_error error "Could not map pid: " in
        g_warning (String.append "Realtime error: " (message error)) ;;
        ret (GErr error)
    | GOk pid' => ret (GOk pid')
    end
  else ret (GOk pid).

(** [on_call_ready]; [result] is what [g_dbus_proxy_call_finish] yields. *)
Definition on_call_ready (result : gresult GVariant)
    (user_data : GDBusMethodInvocation) : GIO unit :=
  let invocation := user_data in
  match result with
  | GErr error => g_dbus_method_invocation_return_gerror invocation error
  | GOk response =>
      v <- g_lift (g_variant_new "()" []) ;;
      g_dbus_method_invocation_return_value invocation v
  end.

Definition handle_make_thread_realtime_with_pid
    (invocation : GDBusMethodInvocation) (process thread priority : Z) : GIO bool :=
  let request := request_from_invocation invocation in
  let pids0 := to_pid_t process in
  r <- map_pid_if_needed (app_info request) pids0 ;;
  match r with
  | GErr error =>
      g_dbus_method_invocation_return_gerror invocation error ;;
      ret true
  | GOk pids0 =>
      parameters <- g_lift (g_variant_new "(ttu)"
                       [VA_int32 pids0; VA_uint64 thread; VA_uint32 priority]) ;;
      g_dbus_proxy_call "MakeThreadRealtimeWithPID" parameters
                        cb_on_call_ready invocation ;;
      ret true
  end.

Definition handle_make_thread_high_priority_with_pid
    (invocation : GDBusMethodInvocation) (process thread priority : Z) : GIO bool :=
  let request := request_from_invocation invocation in
  let pids0 := to_pid_t process in
  r <- map_pid_if_needed (app_info request) pids0 ;;
  match r with
  | GErr error =>
      g_dbus_method_invocation_return_gerror invocation error ;;
      ret true
  | GOk pids0 =>
      parameters <- g_lift (g_variant_new "(ttu)"
                       [VA_int32 pids0; VA_uint64 thread; VA_int32 priority]) ;;
      g_dbus_proxy_call "MakeThreadRealtimeWithPID" parameters
                        cb_on_call_ready invocation ;;
      ret true
  end.

(** [on_get_property_ready].  The second [if (error)] of the source cannot
    be taken after the early return and is left out; [ret] is the [gint64]
    local, so the 32-bit payload is widened by the assignment. *)
Definition on_get_property_ready (result : gresult GVariant)
    (user_data : GDBusMethodInvocation) : GIO unit :=
  let invocation := user_data in
  match result with
  | GErr error => g_dbus_method_invocation_return_gerror invocation error
  | GOk response =>
      child <- g_lift (g_variant_get_child_v response 0) ;;
      if g_variant_is_of_type child G_VARIANT_TYPE_INT64 then
        ret_ <- g_lift (g_variant_get_int64 child) ;;
        v <- g_lift (g_variant_new "(x)" [VA_int64 ret_]) ;;
        g_dbus_method_invocation_return_value invocation v
      else if g_variant_is_of_type child G_VARIANT_TYPE_INT32 then
        ret_ <- g_lift (g_variant_get_int32 child) ;;
        v <- g_lift (g_variant_new "(x)" [VA_int64 ret_]) ;;
        g_dbus_method_invocation_return_value invocation v
      else
        let error := g_error_new_literal XDG_DESKTOP_PORTAL_ERROR
                       XDG_DESKTOP_PORTAL_ERROR_FAILED
                       "Invalid response type recieved" in
        g_dbus_method_invocation_return_gerror invocation error
  end.

Definition handle_get_property
    (invocation : GDBusMethodInvocation) (property_name : string) : GIO bool :=
  parameters <- g_lift (g_variant_new "(ss)"
                   [VA_str "org.freedesktop.RealtimeKit1"; VA_str property_name]) ;;
  g_dbus_proxy_call "org.freedesktop.DBus.Properties.Get" parameters
                    cb_on_get_property_ready invocation ;;
  ret true.

(** The vtable filled in by [realtime_iface_init]. *)
Definition realtime_iface (invocation : GDBusMethodInvocation) (m : Method) : GIO bool :=
  match m with
  | MakeThreadRealtimeWithPID process thread priority =>
      handle_make_thread_realtime_with_pid invocation process thread priority
  | MakeThreadHighPriorityWithPID process thread priority =>
      handle_make_thread_high_priority_with_pid invocation process thread priority
  | GetProperty property_name =>
      handle_get_property invocation property_name
  end.

(** *** The main loop *)

Definition run_callback (call : ProxyCall) (result : gresult GVariant) : GIO unit :=
  match pc_callback call with
  | cb_on_call_ready => on_call_ready result (pc_user_data call)
  | cb_on_get_property_ready => on_get_property_ready result (pc_user_data call)
  end.

(** RealtimeKit's answer to the oldest pending call arrives: the call leaves
    the queue and its callback runs, once. *)
Definition proxy_reply (result : gresult GVariant) : GIO unit :=
  w <- get ;;
  match w_pending w with
  | [] => ret tt
  | call :: rest =>
      put {| w_log := w_log w; w_pending := rest |} ;;
      run_callback call result
  end.

(** The life of one inbound request: its handler runs, then the answer to
    the call it queued (if any) is delivered. *)
Definition serve (invocation : GDBusMethodInvocation) (m : Method)
    (result : gresult GVariant) : GIO unit :=
  realtime_iface invocation m ;;
  proxy_reply result.

Definition run {A : Type} (c : GIO A) (w : World) : option World :=
  option_map snd (runStateT c w).

(** *** Observations on a log *)

Definition is_completion_of (id : nat) (ev : Event) : bool :=
  match ev with
  | EvReturnGError i _ => Nat.eqb i id
  | EvReturnValue i _ => Nat.eqb i id
  | _ => false
  end.

Definition completions (id : nat) (log : list Event) : nat :=
  List.length (List.filter (is_completion_of id) log).

Definition is_proxy_call (ev : Event) : bool :=
  match ev with EvProxyCall _ => true | _ => false end.

(** The process-id slot of a "(ttu)" parameter tuple. *)
Definition pid_parameter (parameters : GVariant) : option Z :=
  match parameters with
  | GV_tuple (GV_uint64 pid :: _) => Some pid
  | _ => None
  end.

(** The priority slot of a "(ttu)" parameter tuple. *)
Definition priority_parameter (parameters : GVariant) : option Z :=
  match parameters with
  | GV_tuple [_; _; GV_uint32 priority] => Some priority
  | _ => None
  end.

(** The answers [Properties.Get] may give under the D-Bus contract: an
    error, or a tuple whose first child is a variant. *)
Definition reply_fits (m : Method) (result : gresult GVariant) : bool :=
  match m, result with
  | GetProperty _, GOk response =>
      match g_variant_get_child_v response 0 with
      | Some _ => true
      | None => false
      end
  | _, _ => true
  end.

(** PID mapping does not stand in the way of forwarding: the caller is
    host-resident, or the mapping of the narrowed pid succeeds. *)
Definition mapping_succeeds (app : XdpAppInfo) (process : Z) : bool :=
  xai_is_host app ||
  match xai_map_pid app (to_pid_t process) with
  | GOk _ => true
  | GErr _ => false
  end.

Definition empty_world : World := {| w_log := []; w_pending := [] |}.

(** The two's-complement pattern of [n] in [width] bits. *)
Definition bit_pattern (width n : Z) : Z := n mod 2 ^ width.

(** Sign extension as the spec words it, on bit patterns: a 32-bit pattern
    becomes the 64-bit pattern whose upper 32 bits repeat bit 31. *)
Definition sign_extend_32_to_64 (b : Z) : Z :=
  if Z.testbit b 31 then b + (2 ^ 64 - 2 ^ 32) else b.

(** The completion the specification requires for a given answer of
    RealtimeKit: the same error, or the empty tuple. *)
Definition relayed (invocation : GDBusMethodInvocation)
    (result : gresult GVariant) : Event :=
  match result with
  | GErr error => EvReturnGError (inv_id invocation) error
  | GOk _ => EvReturnValue (inv_id invocation) (GV_tuple [])
  end.

(** The call [handle_get_property] queues. *)
Definition get_property_call (invocation : GDBusMethodInvocation)
    (property_name : string) : ProxyCall :=
  {| pc_method := "org.freedesktop.DBus.Properties.Get";
     pc_parameters := GV_tuple [GV_string "org.freedesktop.RealtimeKit1";
                                GV_string property_name];
     pc_callback := cb_on_get_property_ready;
     pc_user_data := invocation |}.

End Realtime.

Export Realtime.

(** ** Sample callers and answers *)

Module Samples.

Definition host_app : XdpAppInfo :=
  {| xai_is_host := true; xai_map_pid := fun pid => GOk pid |}.

Definition pid_not_found : GError :=
  {| domain := G_QUARK "g-io-error-quark"; code := G_ERROR_CODE 0;
     message := "No such process" |}.

(** A sandbox whose pid namespace holds pid 42, known to the host as 9001. *)
Definition sandboxed_app : XdpAppInfo :=
  {| xai_is_host := false;
     xai_map_pid := fun pid => if Z.eqb pid 42 then GOk 9001 else GErr pid_not_found |}.

Definition host_invocation : GDBusMethodInvocation :=
  {| inv_id := 1; inv_app_info := host_app |}.

Definition sandboxed_invocation : GDBusMethodInvocation :=
  {| inv_id := 2; inv_app_info := sandboxed_app |}.

Definition string_reply : gresult GVariant :=
  GOk (GV_tuple [GV_variant (GV_string "rtkit")]).

Definition access_denied : GError :=
  {| domain := G_QUARK "g-dbus-error-quark"; code := G_ERROR_CODE 9;
     message := "Access denied" |}.

End Samples.

Export Samples.

(** ** Several requests in flight *)

Module MainLoop.

(** The pending call at position [k], taken out of the queue. *)
Fixpoint take_pending (k : nat) (pending : list ProxyCall)
    : option (ProxyCall * list ProxyCall) :=
  match pending, k with
  | [], _ => None
  | call :: rest, O => Some (call, rest)
  | call :: rest, S k' =>
      match take_pending k' rest with
      | Some (c, rest') => Some (c, call :: rest')
      | None => None
      end
  end.

(** RealtimeKit's answer to the pending call at position [k] arrives, in
    whatever order the bus delivers answers: the call leaves the queue and
    its callback runs.  No callback runs when there is no such call. *)
Definition proxy_reply_to (k : nat) (result : gresult GVariant) : GIO unit :=
  w <- get ;;
  match take_pending k (w_pending w) with
  | None => ret tt
  | Some (call, rest) =>
      put {| w_log := w_log w; w_pending := rest |} ;;
      run_callback call result
  end.

(** What one iteration of the main loop dispatches. *)
Inductive Step :=
| Incoming (invocation : GDBusMethodInvocation) (m : Method)
| Answer (k : nat) (result : gresult GVariant).

Definition step (s : Step) : GIO unit :=
  match s with
  | Incoming invocation m => realtime_iface invocation m ;; ret tt
  | Answer k result => proxy_reply_to k result
  end.

Fixpoint main_loop (steps : list Step) : GIO unit :=
  match steps with
  | [] => ret tt
  | s :: rest => step s ;; main_loop rest
  end.

(** An answer a callback can decode: [on_get_property_ready] needs an error
    or a tuple whose first child is a variant; [on_call_ready] takes
    anything. *)
Definition answer_fits (call : ProxyCall) (result : gresult GVariant) : bool :=
  match pc_callback call, result with
  | cb_on_get_property_ready, GOk response =>
      match g_variant_get_child_v response 0 with
      | Some _ => true
      | None => false
      end
  | _, _ => true
  end.

Definition step_fits (s : Step) (w : World) : bool :=
  match s with
  | Incoming _ _ => true
  | Answer k result =>
      match take_pending k (w_pending w) with
      | Some (call, _) => answer_fits call result
      | None => true
      end
  end.

(** Every answer of the trace fits the call it reaches. *)
Fixpoint trace_fits (steps : list Step) (w : World) : bool :=
  match steps with
  | [] => true
  | s :: rest =>
      step_fits s w &&
      match run (step s) w with
      | Some w' => trace_fits rest w'
      | None => true
      end
  end.

Definition carries (id : nat) (call : ProxyCall) : bool :=
  Nat.eqb (inv_id (pc_user_data call)) id.

(** Pending calls whose callback will complete invocation [id]. *)
Definition awaiting (id : nat) (pending : list ProxyCall) : nat :=
  List.length (List.filter (carries id) pending).

(** Completions already made for [id] plus those still to come. *)
Definition owed (id : nat) (w : World) : nat :=
  (completions id (w_log w) + awaiting id (w_pending w))%nat.

Definition is_arrival_of (id : nat) (s : Step) : bool :=
  match s with
  | Incoming invocation _ => Nat.eqb (inv_id invocation) id
  | Answer _ _ => false
  end.

Definition arrivals (id : nat) (steps : list Step) : nat :=
  List.length (List.filter (is_arrival_of id) steps).

(** *** Further observations on a log *)

Definition is_map_pids (ev : Event) : bool :=
  match ev with EvMapPids _ => true | _ => false end.

Definition is_warning (ev : Event) : bool :=
  match ev with EvWarning _ => true | _ => false end.

Definition count_events (p : Event -> bool) (log : list Event) : nat :=
  List.length (List.filter p log).

(** The thread-id slot of a "(ttu)" parameter tuple. *)
Definition thread_parameter (parameters : GVariant) : option Z :=
  match parameters with
  | GV_tuple (_ :: GV_uint64 tid :: _) => Some tid
  | _ => None
  end.

(** Whether a request asks the pid mapping: a thread request of a caller
    that is not host-resident. *)
Definition consults_mapping (invocation : GDBusMethodInvocation) (m : Method) : bool :=
  match m with
  | GetProperty _ => false
  | _ => negb (xai_is_host (inv_app_info invocation))
  end.

(** Whether a request's pid mapping is asked and fails. *)
Definition mapping_fails (invocation : GDBusMethodInvocation) (m : Method) : bool :=
  match m with
  | MakeThreadRealtimeWithPID process _ _
  | MakeThreadHighPriorityWithPID process _ _ =>
      negb (mapping_succeeds (inv_app_info invocation) process)
  | GetProperty _ => false
  end.

(** The error [on_get_property_ready] builds for an unsupported type. *)
Definition invalid_response_type : GError :=
  {| domain := XDG_DESKTOP_PORTAL_ERROR;
     code := XDG_DESKTOP_PORTAL_ERROR_FAILED;
     message := "Invalid response type recieved" |}.

End MainLoop.

Export MainLoop.

(** ** Start-up and tear-down: [realtime_create], [realtime_init],
    [realtime_finalize] *)

Module Bootstrap.

Inductive GBusType :=
| G_BUS_TYPE_SYSTEM
| G_BUS_TYPE_SESSION.

(** The proxy flags, by name; a flag word is the list of the flags or-ed
    into it. *)
Inductive GDBusProxyFlags :=
| G_DBUS_PROXY_FLAGS_DO_NOT_LOAD_PROPERTIES
| G_DBUS_PROXY_FLAGS_DO_NOT_CONNECT_SIGNALS
| G_DBUS_PROXY_FLAGS_DO_NOT_AUTO_START
| G_DBUS_PROXY_FLAGS_GET_INVALIDATED_PROPERTIES
| G_DBUS_PROXY_FLAGS_DO_NOT_AUTO_START_AT_CONSTRUCTION.

Record GDBusConnection := mkConnection {
  connection_handle : nat
}.

Record GDBusProxy := mkProxy {
  proxy_connection : GDBusConnection;
  proxy_flags : list GDBusProxyFlags;
  proxy_name : string;
  proxy_object_path : string;
  proxy_interface_name : string
}.

(** [struct _Realtime], with the skeleton's version property. *)
Record Realtime := mkRealtime {
  version : Z;
  rtkit_proxy : option GDBusProxy
}.

(** What the buses answer at start-up: the connection [g_bus_get_sync]
    yields or the error it sets, and the error [g_dbus_proxy_new_sync] sets
    for a given proxy, if any. *)
Record System := mkSystem {
  sys_bus_get_sync : GBusType -> gresult GDBusConnection;
  sys_proxy_new_sync : GDBusProxy -> option GError
}.

Inductive BootEvent :=
| BootBusGet (bus_type : GBusType)
| BootProxyNew (proxy : GDBusProxy)
| BootWarning (msg : string)
| BootUnref (proxy : GDBusProxy).

(** The process-wide state: the file's [static Realtime *realtime] and the
    effects so far. *)
Record Process := mkProcess {
  realtime : option Realtime;
  boot_log : list BootEvent
}.

Definition Boot := state Process.

Definition boot_emit (ev : BootEvent) : Boot unit :=
  p <- get ;;
  put {| realtime := realtime p; boot_log := boot_log p ++ [ev] |}.

Definition boot_warning (msg : string) : Boot unit := boot_emit (BootWarning msg).

Definition g_bus_get_sync (sys : System) (bus_type : GBusType)
    : Boot (gresult GDBusConnection) :=
  boot_emit (BootBusGet bus_type) ;;
  ret (sys_bus_get_sync sys bus_type).

Definition g_dbus_proxy_new_sync (sys : System) (connection : GDBusConnection)
    (flags : list GDBusProxyFlags) (name object_path interface_name : string)
    : Boot (gresult GDBusProxy) :=
  let proxy := {| proxy_connection := connection; proxy_flags := flags;
                  proxy_name := name; proxy_object_path := object_path;
                  proxy_interface_name := interface_name |} in
  boot_emit (BootProxyNew proxy) ;;
  ret (match sys_proxy_new_sync sys proxy with
       | None => GOk proxy
       | Some error => GErr error
       end).

(** [realtime_init]: [xdp_realtime_set_version (XDP_REALTIME (self), 1)]. *)
Definition realtime_init (self : Realtime) : Realtime :=
  {| version := 1; rtkit_proxy := rtkit_proxy self |}.

(** [g_object_new (realtime_get_type (), NULL)]: a zeroed instance, then the
    instance initialiser. *)
Definition g_object_new_realtime : Realtime :=
  realtime_init {| version := 0; rtkit_proxy := None |}.

(** [realtime_create (connection)]; [None] is the NULL result. *)
Definition realtime_create (sys : System) (connection : GDBusConnection)
    : Boot (option Realtime) :=
  r <- g_bus_get_sync sys G_BUS_TYPE_SYSTEM ;;
  match r with
  | GErr error =>
      boot_warning (String.append "Failed to connect to system bus for RealtimeKit: "
                      (message error)) ;;
      ret None
  | GOk system_bus =>
      r <- g_dbus_proxy_new_sync sys system_bus
             [G_DBUS_PROXY_FLAGS_DO_NOT_AUTO_START_AT_CONSTRUCTION;
              G_DBUS_PROXY_FLAGS_DO_NOT_CONNECT_SIGNALS;
              G_DBUS_PROXY_FLAGS_DO_NOT_LOAD_PROPERTIES]
             "org.freedesktop.RealtimeKit1"
             "/org/freedesktop/RealtimeKit1"
             "org.freedesktop.RealtimeKit1" ;;
      match r with
      | GErr error =>
          boot_warning (String.append "Failed to create RealtimeKit proxy: "
                          (message error)) ;;
          ret None
      | GOk proxy =>
          let self := g_object_new_realtime in
          let self := {| version := version self; rtkit_proxy := Some proxy |} in
          p <- get ;;
          put {| realtime := Some self; boot_log := boot_log p |} ;;
          ret (Some self)
      end
  end.

(** [realtime_finalize]: [g_clear_object (&self->rtkit_proxy)] drops the
    reference if the field is set and clears the field; the function then
    chains up to the parent class's finalizer, which lies outside this
    file. *)
Definition realtime_finalize (self : Realtime) : Boot Realtime :=
  match rtkit_proxy self with
  | Some proxy => boot_emit (BootUnref proxy)
  | None => ret tt
  end ;;
  ret {| version := version self; rtkit_proxy := None |}.

Definition is_boot_warning (ev : BootEvent) : bool :=
  match ev with BootWarning _ => true | _ => false end.

Definition is_proxy_new (ev : BootEvent) : bool :=
  match ev with BootProxyNew _ => true | _ => false end.

Definition is_unref (ev : BootEvent) : bool :=
  match ev with BootUnref _ => true | _ => false end.

Definition count_occ_boot (p : BootEvent -> bool) (log : list BootEvent) : nat :=
  List.length (List.filter p log).

(** Start-up fails: the system bus is out of reach, or the proxy for the
    given connection cannot be created. *)
Definition startup_fails (sys : System) : bool :=
  match sys_bus_get_sync sys G_BUS_TYPE_SYSTEM with
  | GErr _ => true
  | GOk system_bus =>
      match sys_proxy_new_sync sys
              {| proxy_connection := system_bus;
                 proxy_flags :=
                   [G_DBUS_PROXY_FLAGS_DO_NOT_AUTO_START_AT_CONSTRUCTION;
                    G_DBUS_PROXY_FLAGS_DO_NOT_CONNECT_SIGNALS;
                    G_DBUS_PROXY_FLAGS_DO_NOT_LOAD_PROPERTIES];
                 proxy_name := "org.freedesktop.RealtimeKit1";
                 proxy_object_path := "/org/freedesktop/RealtimeKit1";
                 proxy_interface_name := "org.freedesktop.RealtimeKit1" |} with
      | Some _ => true
      | None => false
      end
  end.

(** Sample start-up environments. *)
Definition sample_system_bus : GDBusConnection := {| connection_handle := 1 |}.

Definition sample_session_bus : GDBusConnection := {| connection_handle := 2 |}.

Definition sample_buses (bus_type : GBusType) : gresult GDBusConnection :=
  match bus_type with
  | G_BUS_TYPE_SYSTEM => GOk sample_system_bus
  | G_BUS_TYPE_SESSION => GOk sample_session_bus
  end.

Definition working_system : System :=
  {| sys_bus_get_sync := sample_buses; sys_proxy_new_sync := fun _ => None |}.

Definition system_without_rtkit : System :=
  {| sys_bus_get_sync := sample_buses;
     sys_proxy_new_sync := fun _ => Some access_denied |}.

Definition fresh_process : Process := {| realtime := None; boot_log := [] |}.

End Bootstrap.

Export Bootstrap.

(** ** Properties *)

Section LogFacts.

Variable id : nat.

Lemma completions_app (l l' : list Event) :
  completions id (l ++ l') = (completions id l + completions id l')%nat.
Proof.
  unfold completions. rewrite filter_app, length_app. reflexivity.
Qed.

End LogFacts.

(** Unfolds a handler run down to the branching on the caller and on the
    mapping's outcome. *)
Ltac unfold_handlers :=
  unfold run, serve, realtime_iface, proxy_reply, run_callback,
    handle_make_thread_realtime_with_pid,
    handle_make_thread_high_priority_with_pid, handle_get_property,
    on_call_ready, on_get_property_ready,
    map_pid_if_needed, xdg_app_info_map_pids, xdp_app_info_is_host,
    g_dbus_proxy_call, g_dbus_method_invocation_return_gerror,
    g_dbus_method_invocation_return_value, g_warning, emit, g_lift,
    request_from_invocation;
  simpl;
  change (Z.pow_pos 2 32) with (2 ^ 32).

(** Counts the completions in a log extended by explicit events. *)
Ltac count_completions :=
  repeat rewrite <- app_assoc; simpl;
  repeat rewrite completions_app;
  unfold completions; simpl;
  repeat rewrite Nat.eqb_refl; simpl;
  try lia.

(** C1 — every inbound request is completed exactly once.  Whatever the
    method, the caller and the outcome of the pid mapping, and whatever
    RealtimeKit answers (for GetProperty: an error or a tuple holding a
    variant), serving the request succeeds, adds exactly one completion of
    this invocation to the log, completes no other invocation, and leaves no
    callback pending. *)
Theorem C1_exactly_one_completion :
  forall invocation m result log,
    reply_fits m result = true ->
    exists w',
      run (serve invocation m result) {| w_log := log; w_pending := [] |} = Some w'
      /\ completions (inv_id invocation) (w_log w')
         = S (completions (inv_id invocation) log)
      /\ (forall id, id <> inv_id invocation ->
            completions id (w_log w') = completions id log)
      /\ w_pending w' = [].
Proof.
  intros invocation m result log Hfit.
  assert (Hother : forall id, id <> inv_id invocation ->
                     Nat.eqb (inv_id invocation) id = false).
  { intros id Hid. apply Nat.eqb_neq. congruence. }
  destruct m as [process thread priority | process thread priority | name];
    unfold_handlers.
  1, 2: destruct (xai_is_host (inv_app_info invocation)); simpl;
    [ | destruct (xai_map_pid (inv_app_info invocation) (to_pid_t process));
        simpl ];
    try (destruct result; simpl);
    (eexists; split; [reflexivity | ]; simpl;
     split; [ count_completions
            | split; [ intros id Hid; specialize (Hother id Hid);
                       count_completions; rewrite Hother; simpl; lia
                     | reflexivity ] ]).
  destruct result as [response | error]; simpl.
  - unfold reply_fits in Hfit.
    destruct (g_variant_get_child_v response 0) as [child | ]; [ | discriminate ].
    simpl.
    destruct child; simpl;
      (eexists; split; [reflexivity | ]; simpl;
       split; [ count_completions
              | split; [ intros id Hid; specialize (Hother id Hid);
                         count_completions; rewrite Hother; simpl; lia
                       | reflexivity ] ]).
  - eexists; split; [reflexivity | ]; simpl.
    split; [ count_completions
           | split; [ intros id Hid; specialize (Hother id Hid);
                      count_completions; rewrite Hother; simpl; lia
                    | reflexivity ] ].
Qed.

(** The exactly-once property at a GetProperty request answered with a
    string: the coercion-failure path. *)
Lemma C1_exactly_one_completion_witness :
  reply_fits (GetProperty "RTTimeUSecMax") string_reply = true /\
  exists w',
    run (serve host_invocation (GetProperty "RTTimeUSecMax") string_reply)
        {| w_log := []; w_pending := [] |} = Some w'
    /\ completions (inv_id host_invocation) (w_log w') = 1%nat
    /\ (forall id, id <> inv_id host_invocation ->
          completions id (w_log w') = completions id [])
    /\ w_pending w' = [].
Proof.
  split; [reflexivity | ].
  exact (C1_exactly_one_completion host_invocation (GetProperty "RTTimeUSecMax")
           string_reply [] eq_refl).
Defined.

Lemma prefix_append (p s : string) : String.prefix p (String.append p s) = true.
Proof.
  induction p as [ | a p IH]; simpl; [destruct s; reflexivity | ].
  destruct (ascii_dec a a) as [_ | Hne]; [exact IH | contradiction].
Qed.

(** *** The pid narrowing *)


Lemma to_pid_t_small (x : Z) : 0 <= x < 2 ^ 31 -> to_pid_t x = x.
Proof.
  intros Hx. unfold to_pid_t. rewrite Z.mod_small; lia.
Qed.







(** C3 — a sandboxed caller whose pid mapping fails: both handlers ask the
    mapping once, log the warning and complete the invocation with the
    mapping's error, its message prefixed with "Could not map pid: "; no call
    is queued on the RealtimeKit proxy. *)
Theorem C3_mapping_failure_completes_with_prefixed_error :
  forall invocation process thread priority w error,
    xai_is_host (inv_app_info invocation) = false ->
    xai_map_pid (inv_app_info invocation) (to_pid_t process) = GErr error ->
    let error' := g_prefix_error error "Could not map pid: " in
    let w' := {| w_log := w_log w ++
                   [EvMapPids (to_pid_t process);
                    EvWarning (String.append "Realtime error: " (message error'));
                    EvReturnGError (inv_id invocation) error'];
                 w_pending := w_pending w |} in
    run (handle_make_thread_realtime_with_pid invocation process thread priority) w
      = Some w'
    /\ run (handle_make_thread_high_priority_with_pid invocation process thread priority) w
      = Some w'
    /\ message error' = String.append "Could not map pid: " (message error)
    /\ String.prefix "Could not map pid: " (message error') = true
    /\ domain error' = domain error /\ code error' = code error
    /\ filter is_proxy_call (w_log w') = filter is_proxy_call (w_log w).
Proof.
  intros invocation process thread priority w error Hhost Hmap error' w'.
  subst w' error'.
  repeat split; try reflexivity.
  1, 2: unfold_handlers; rewrite Hhost; simpl; rewrite Hmap; simpl;
    rewrite <- !app_assoc; reflexivity.
  - apply prefix_append.
  - cbn [w_log]. rewrite filter_app. simpl. apply app_nil_r.
Qed.

(** C3 at the sample sandbox, asked to map a pid it does not hold. *)
Lemma C3_mapping_failure_completes_with_prefixed_error_witness :
  xai_is_host (inv_app_info sandboxed_invocation) = false
  /\ xai_map_pid (inv_app_info sandboxed_invocation) (to_pid_t 43) = GErr pid_not_found
  /\ run (handle_make_thread_realtime_with_pid sandboxed_invocation 43 7 10) empty_world
     = Some {| w_log :=
                 [EvMapPids 43;
                  EvWarning "Realtime error: Could not map pid: No such process";
                  EvReturnGError 2
                    {| domain := G_QUARK "g-io-error-quark"; code := G_ERROR_CODE 0;
                       message := "Could not map pid: No such process" |}];
               w_pending := [] |}.
Proof.
  split; [reflexivity | split; [reflexivity | ]].
  exact (proj1 (C3_mapping_failure_completes_with_prefixed_error
                  sandboxed_invocation 43 7 10 empty_world pid_not_found
                  eq_refl eq_refl)).
Defined.

(** C4 — a sandboxed caller whose pid mapping succeeds: both handlers ask the
    mapping for the narrowed pid and queue one outbound call whose process-id
    argument is the pid the mapping wrote in place, not the caller's own; for
    a mapped pid in [0, 2^31) that is the value the call carries on the
    wire. *)
Theorem C4_mapped_pid_is_forwarded :
  forall invocation process thread priority w host_pid,
    xai_is_host (inv_app_info invocation) = false ->
    xai_map_pid (inv_app_info invocation) (to_pid_t process) = GOk host_pid ->
    (exists call,
        run (handle_make_thread_realtime_with_pid invocation process thread priority) w
        = Some {| w_log := w_log w ++ [EvMapPids (to_pid_t process); EvProxyCall call];
                  w_pending := w_pending w ++ [call] |}
        /\ g_variant_new "(ttu)"
             [VA_int32 host_pid; VA_uint64 thread; VA_uint32 priority]
           = Some (pc_parameters call)
        /\ (0 <= host_pid < 2 ^ 31 ->
            pc_parameters call
            = GV_tuple [GV_uint64 host_pid; GV_uint64 thread; GV_uint32 priority]))
    /\ (exists call,
        run (handle_make_thread_high_priority_with_pid invocation process thread priority) w
        = Some {| w_log := w_log w ++ [EvMapPids (to_pid_t process); EvProxyCall call];
                  w_pending := w_pending w ++ [call] |}
        /\ g_variant_new "(ttu)"
             [VA_int32 host_pid; VA_uint64 thread; VA_int32 priority]
           = Some (pc_parameters call)
        /\ (0 <= host_pid < 2 ^ 31 ->
            pid_parameter (pc_parameters call) = Some host_pid)).
Proof.
  intros invocation process thread priority w host_pid Hhost Hmap.
  split; unfold_handlers; rewrite Hhost; simpl; rewrite Hmap; simpl;
    (eexists; split; [rewrite <- app_assoc; reflexivity | ]; simpl;
     split; [reflexivity | ]; intros Hrange;
     rewrite Z.mod_small by lia; reflexivity).
Qed.

(** C4 at the spec's end-to-end example: local pid 42, thread 7, priority 10,
    the sandbox mapping 42 to 9001; the call goes out as (9001, 7, 10). *)
Lemma C4_mapped_pid_is_forwarded_witness :
  xai_is_host (inv_app_info sandboxed_invocation) = false
  /\ xai_map_pid (inv_app_info sandboxed_invocation) (to_pid_t 42) = GOk 9001
  /\ exists call,
       run (handle_make_thread_realtime_with_pid sandboxed_invocation 42 7 10) empty_world
       = Some {| w_log := [EvMapPids 42; EvProxyCall call]; w_pending := [call] |}
       /\ pc_parameters call = GV_tuple [GV_uint64 9001; GV_uint64 7; GV_uint32 10].
Proof.
  split; [reflexivity | split; [reflexivity | ]].
  destruct (C4_mapped_pid_is_forwarded sandboxed_invocation 42 7 10 empty_world 9001
              eq_refl eq_refl) as [[call [Hrun [_ Hpar]]] _].
  exists call. split; [exact Hrun | apply Hpar; lia].
Defined.

(** *** Relaying RealtimeKit's answer *)

Lemma on_call_ready_relays invocation result w :
  run (on_call_ready result invocation) w
  = Some {| w_log := w_log w ++ [relayed invocation result];
            w_pending := w_pending w |}.
Proof.
  unfold_handlers. destruct result; reflexivity.
Qed.

(** C5 — when either thread handler has queued its outbound call and
    RealtimeKit's answer arrives, the invocation is completed with that very
    error if the answer is an error, and with the empty tuple otherwise. *)
Theorem C5_upstream_outcome_is_relayed :
  forall invocation process thread priority result log,
    mapping_succeeds (inv_app_info invocation) process = true ->
    (exists w0 call,
        run (handle_make_thread_realtime_with_pid invocation process thread priority)
            {| w_log := log; w_pending := [] |} = Some w0
        /\ w_pending w0 = [call]
        /\ pc_callback call = cb_on_call_ready
        /\ run (proxy_reply result) w0
           = Some {| w_log := w_log w0 ++ [relayed invocation result];
                     w_pending := [] |})
    /\ (exists w0 call,
        run (handle_make_thread_high_priority_with_pid invocation process thread priority)
            {| w_log := log; w_pending := [] |} = Some w0
        /\ w_pending w0 = [call]
        /\ pc_callback call = cb_on_call_ready
        /\ run (proxy_reply result) w0
           = Some {| w_log := w_log w0 ++ [relayed invocation result];
                     w_pending := [] |}).
Proof.
  intros invocation process thread priority result log Hmap.
  unfold mapping_succeeds in Hmap.
  split; unfold_handlers;
    (destruct (xai_is_host (inv_app_info invocation)); simpl in Hmap;
     [ | destruct (xai_map_pid (inv_app_info invocation) (to_pid_t process));
         [ | discriminate ] ];
     simpl; do 2 eexists; (split; [reflexivity | ]); simpl;
     (split; [reflexivity | ]); (split; [reflexivity | ]);
     destruct result; reflexivity).
Qed.

(** C5 at a host-resident caller whose call RealtimeKit refuses. *)
Lemma C5_upstream_outcome_is_relayed_witness :
  mapping_succeeds (inv_app_info host_invocation) 1234 = true
  /\ exists w0 call,
       run (handle_make_thread_realtime_with_pid host_invocation 1234 7 10)
           {| w_log := []; w_pending := [] |} = Some w0
       /\ w_pending w0 = [call]
       /\ pc_callback call = cb_on_call_ready
       /\ run (proxy_reply (GErr access_denied)) w0
          = Some {| w_log := w_log w0 ++ [EvReturnGError 1 access_denied];
                    w_pending := [] |}.
Proof.
  split; [reflexivity | ].
  exact (proj1 (C5_upstream_outcome_is_relayed host_invocation 1234 7 10
                  (GErr access_denied) [] eq_refl)).
Defined.

(** *** Property coercion *)

Lemma sign_extend_pattern (n : Z) :
  - 2 ^ 31 <= n < 2 ^ 31 ->
  bit_pattern 64 n = sign_extend_32_to_64 (bit_pattern 32 n).
Proof.
  intros Hn. unfold bit_pattern, sign_extend_32_to_64.
  rewrite Z.testbit_odd, Z.shiftr_div_pow2 by lia.
  destruct (Z_lt_le_dec n 0) as [Hneg | Hpos].
  - replace (n mod 2 ^ 32) with (n + 2 ^ 32)
      by (apply Z.mod_unique with (q := -1); lia).
    replace ((n + 2 ^ 32) / 2 ^ 31) with 1
      by (apply Z.div_unique with (r := n + 2 ^ 31); lia).
    simpl Z.odd. cbv iota.
    symmetry. apply Z.mod_unique with (q := -1); lia.
  - rewrite (Z.mod_small n (2 ^ 32)) by lia.
    rewrite (Z.div_small n (2 ^ 31)) by lia.
    simpl Z.odd. cbv iota.
    apply Z.mod_small. lia.
Qed.

(** C6 — a GetProperty answer wrapping a 64-bit signed integer completes the
    request with that integer unchanged; one wrapping a 32-bit signed integer
    completes it with the same number as a 64-bit integer, whose bit pattern
    is the sign extension of the 32-bit one. *)
Theorem C6_integer_property_is_widened :
  forall invocation name n64 n32 rest log,
    - 2 ^ 31 <= n32 < 2 ^ 31 ->
    run (serve invocation (GetProperty name)
           (GOk (GV_tuple (GV_variant (GV_int64 n64) :: rest))))
        {| w_log := log; w_pending := [] |}
    = Some {| w_log := log ++ [EvProxyCall (get_property_call invocation name);
                               EvReturnValue (inv_id invocation)
                                 (GV_tuple [GV_int64 n64])];
              w_pending := [] |}
    /\ run (serve invocation (GetProperty name)
              (GOk (GV_tuple (GV_variant (GV_int32 n32) :: rest))))
           {| w_log := log; w_pending := [] |}
       = Some {| w_log := log ++ [EvProxyCall (get_property_call invocation name);
                                  EvReturnValue (inv_id invocation)
                                    (GV_tuple [GV_int64 n32])];
                 w_pending := [] |}
    /\ bit_pattern 64 n32 = sign_extend_32_to_64 (bit_pattern 32 n32).
Proof.
  intros invocation name n64 n32 rest log Hn.
  split; [ | split ].
  1, 2: unfold_handlers; rewrite <- app_assoc; reflexivity.
  apply sign_extend_pattern. exact Hn.
Qed.

(** C6 at the spec's examples: answers wrapping the 64-bit integer
    9000000000 and the 32-bit integer -5. *)
Lemma C6_integer_property_is_widened_witness :
  - 2 ^ 31 <= -5 < 2 ^ 31
  /\ run (serve host_invocation (GetProperty "RTTimeUSecMax")
            (GOk (GV_tuple [GV_variant (GV_int64 9000000000)])))
         {| w_log := []; w_pending := [] |}
     = Some {| w_log := [EvProxyCall (get_property_call host_invocation
                                        "RTTimeUSecMax");
                         EvReturnValue 1 (GV_tuple [GV_int64 9000000000])];
               w_pending := [] |}
  /\ run (serve host_invocation (GetProperty "RTTimeUSecMax")
            (GOk (GV_tuple [GV_variant (GV_int32 (-5))])))
         {| w_log := []; w_pending := [] |}
     = Some {| w_log := [EvProxyCall (get_property_call host_invocation
                                        "RTTimeUSecMax");
                         EvReturnValue 1 (GV_tuple [GV_int64 (-5)])];
               w_pending := [] |}
  /\ bit_pattern 64 (-5) = sign_extend_32_to_64 (bit_pattern 32 (-5)).
Proof.
  split; [lia | ].
  exact (C6_integer_property_is_widened host_invocation "RTTimeUSecMax"
           9000000000 (-5) [] [] ltac:(lia)).
Defined.

(** An answer wrapping anything but a signed 32- or 64-bit integer completes
    the request with the portal's generic failure and returns no value. *)
Lemma unsupported_wire_type_fails invocation child rest w :
  g_variant_is_of_type child G_VARIANT_TYPE_INT64 = false ->
  g_variant_is_of_type child G_VARIANT_TYPE_INT32 = false ->
  run (on_get_property_ready (GOk (GV_tuple (GV_variant child :: rest))) invocation) w
  = Some {| w_log := w_log w ++
              [EvReturnGError (inv_id invocation)
                 {| domain := XDG_DESKTOP_PORTAL_ERROR;
                    code := XDG_DESKTOP_PORTAL_ERROR_FAILED;
                    message := "Invalid response type recieved" |}];
            w_pending := w_pending w |}.
Proof.
  intros H64 H32. unfold_handlers.
  destruct child; simpl in H64, H32; try discriminate; reflexivity.
Qed.

(** C7 — the code at a GetProperty answer wrapping a string: the request is
    completed with the generic failure and no value, but the message the code
    carries is spelled "recieved", which is not the message the
    specification requires. *)
Theorem C7_invalid_type_message_is_misspelled :
  run (serve host_invocation (GetProperty "RTTimeUSecMax") string_reply) empty_world
  = Some {| w_log := [EvProxyCall (get_property_call host_invocation "RTTimeUSecMax");
                      EvReturnGError 1
                        {| domain := XDG_DESKTOP_PORTAL_ERROR;
                           code := XDG_DESKTOP_PORTAL_ERROR_FAILED;
                           message := "Invalid response type recieved" |}];
            w_pending := [] |}
  /\ "Invalid response type recieved"%string <> "Invalid response type received"%string.
Proof.
  split; [reflexivity | discriminate].
Qed.

(** *** The two thread handlers side by side *)

Lemma high_priority_as_realtime invocation process thread priority w :
  run (handle_make_thread_high_priority_with_pid invocation process thread priority) w
  = run (handle_make_thread_realtime_with_pid invocation process thread
           (priority mod 2 ^ 32)) w.
Proof.
  unfold_handlers.
  destruct (xai_is_host (inv_app_info invocation)); simpl;
    [ | destruct (xai_map_pid (inv_app_info invocation) (to_pid_t process)) ];
    reflexivity.
Qed.

(** C8 — whenever the pid mapping does not fail, SetThreadRealtime and
    SetThreadHighPriority each queue one call of the same RealtimeKit verb,
    MakeThreadRealtimeWithPID, with the same callback, built by the same
    "(ttu)" construction from the same pid and thread; only the C type of the
    priority argument differs, and when the two priorities have the same
    32-bit pattern the two calls are equal. *)
Theorem C8_high_priority_targets_realtime_verb :
  forall invocation process thread p q w,
    mapping_succeeds (inv_app_info invocation) process = true ->
    exists events pid c1 c2,
      run (handle_make_thread_realtime_with_pid invocation process thread p) w
      = Some {| w_log := w_log w ++ events ++ [EvProxyCall c1];
                w_pending := w_pending w ++ [c1] |}
      /\ run (handle_make_thread_high_priority_with_pid invocation process thread q) w
         = Some {| w_log := w_log w ++ events ++ [EvProxyCall c2];
                   w_pending := w_pending w ++ [c2] |}
      /\ pc_method c1 = "MakeThreadRealtimeWithPID"%string
      /\ pc_method c2 = "MakeThreadRealtimeWithPID"%string
      /\ pc_callback c1 = pc_callback c2
      /\ pc_user_data c1 = pc_user_data c2
      /\ g_variant_new "(ttu)" [VA_int32 pid; VA_uint64 thread; VA_uint32 p]
         = Some (pc_parameters c1)
      /\ g_variant_new "(ttu)" [VA_int32 pid; VA_uint64 thread; VA_int32 q]
         = Some (pc_parameters c2)
      /\ (q mod 2 ^ 32 = p -> c1 = c2).
Proof.
  intros invocation process thread p q w Hmap.
  unfold mapping_succeeds in Hmap.
  unfold_handlers.
  destruct (xai_is_host (inv_app_info invocation)); simpl in Hmap.
  - exists [], (to_pid_t process). simpl.
    do 2 eexists. repeat (split; [reflexivity | ]).
    intros Hq. rewrite Hq. reflexivity.
  - destruct (xai_map_pid (inv_app_info invocation) (to_pid_t process))
      as [pid | ]; [ | discriminate ].
    exists [EvMapPids (to_pid_t process)], pid. simpl.
    do 2 eexists. rewrite <- !app_assoc. simpl.
    repeat (split; [reflexivity | ]).
    intros Hq. rewrite Hq. reflexivity.
Qed.

(** C8 at the sample sandbox: realtime priority 4294967291 and high priority
    -5 reach RealtimeKit as the same call. *)
Lemma C8_high_priority_targets_realtime_verb_witness :
  mapping_succeeds (inv_app_info sandboxed_invocation) 42 = true
  /\ (-5) mod 2 ^ 32 = 4294967291
  /\ run (handle_make_thread_high_priority_with_pid sandboxed_invocation 42 7 (-5))
         empty_world
     = run (handle_make_thread_realtime_with_pid sandboxed_invocation 42 7 4294967291)
         empty_world.
Proof.
  split; [reflexivity | split; [reflexivity | ]].
  destruct (C8_high_priority_targets_realtime_verb sandboxed_invocation 42 7
              4294967291 (-5) empty_world eq_refl)
    as [events [pid [c1 [c2 [H1 [H2 [_ [_ [_ [_ [_ [_ Heq]]]]]]]]]]]].
  rewrite H1, H2, (Heq eq_refl). reflexivity.
Defined.




(** C10 — SetThreadHighPriority packs its signed priority into the unsigned
    32-bit slot of the outbound call: for every priority the slot holds the
    priority modulo 2^32, which for a negative priority p is 2^32 + p. *)
Theorem C10_signed_priority_in_unsigned_slot :
  forall invocation process thread priority w,
    mapping_succeeds (inv_app_info invocation) process = true ->
    (exists w' call,
        run (handle_make_thread_high_priority_with_pid invocation process thread priority) w
        = Some w'
        /\ w_pending w' = w_pending w ++ [call]
        /\ va_leaf "u" (VA_int32 priority) = Some (GV_uint32 (priority mod 2 ^ 32))
        /\ priority_parameter (pc_parameters call) = Some (priority mod 2 ^ 32))
    /\ (- 2 ^ 31 <= priority < 0 -> priority mod 2 ^ 32 = 2 ^ 32 + priority).
Proof.
  intros invocation process thread priority w Hmap.
  split.
  - unfold mapping_succeeds in Hmap.
    unfold_handlers.
    destruct (xai_is_host (inv_app_info invocation)); simpl in Hmap;
      [ | destruct (xai_map_pid (inv_app_info invocation) (to_pid_t process));
          [ | discriminate ] ];
      simpl; do 2 eexists; repeat (split; [reflexivity | ]); reflexivity.
  - intros Hneg. symmetry. apply Z.mod_unique with (q := -1); lia.
Qed.

(** C10 at priority -5, which RealtimeKit receives as 4294967291. *)
Lemma C10_signed_priority_in_unsigned_slot_witness :
  mapping_succeeds (inv_app_info host_invocation) 1234 = true
  /\ - 2 ^ 31 <= -5 < 0
  /\ (exists w' call,
       run (handle_make_thread_high_priority_with_pid host_invocation 1234 7 (-5))
           empty_world = Some w'
       /\ w_pending w' = [call]
       /\ priority_parameter (pc_parameters call) = Some 4294967291)
  /\ (-5) mod 2 ^ 32 = 2 ^ 32 + -5.
Proof.
  split; [reflexivity | split; [lia | ]].
  destruct (C10_signed_priority_in_unsigned_slot host_invocation 1234 7 (-5)
              empty_world eq_refl)
    as [[w' [call [Hrun [Hpend [_ Hprio]]]]] Hneg].
  split; [ | apply Hneg; lia ].
  exists w', call. repeat split; assumption.
Defined.

(** ** Further properties of the handlers *)

Lemma run_seq {A B : Type} (a : GIO A) (b : GIO B) (w : World) :
  run (a ;; b) w = match run a w with Some w1 => run b w1 | None => None end.
Proof.
  unfold run. simpl.
  destruct (runStateT a w) as [[x w1] | ]; reflexivity.
Qed.

(** What a handler does, whatever happened before: it returns TRUE, appends
    events and queued calls that depend on the request alone, and either
    completes the invocation or queues one call carrying it. *)
Lemma handler_effects invocation m :
  exists events calls,
    (forall w, runStateT (realtime_iface invocation m) w
               = Some (true, {| w_log := w_log w ++ events;
                                w_pending := w_pending w ++ calls |}))
    /\ (completions (inv_id invocation) events + List.length calls = 1)%nat
    /\ (forall id, id <> inv_id invocation -> completions id events = 0%nat)
    /\ Forall (fun call => pc_user_data call = invocation) calls
    /\ filter is_proxy_call events = map EvProxyCall calls.
Proof.
  assert (Hother : forall id, id <> inv_id invocation ->
                     Nat.eqb (inv_id invocation) id = false).
  { intros id Hid. apply Nat.eqb_neq. congruence. }
  destruct m as [process thread priority | process thread priority | name];
    unfold_handlers.
  1, 2: destruct (xai_is_host (inv_app_info invocation)); simpl;
    [ | destruct (xai_map_pid (inv_app_info invocation) (to_pid_t process));
        simpl ].
  all: first
    [ do 2 eexists; split;
      [ intros w; repeat rewrite <- app_assoc; simpl; reflexivity | ]
    | eexists; exists []; split;
      [ intros w; rewrite (app_nil_r (w_pending w));
        repeat rewrite <- app_assoc; simpl; reflexivity | ] ].
  all: split; [ unfold completions; simpl; repeat rewrite Nat.eqb_refl; reflexivity | ].
  all: split; [ intros id Hid; unfold completions; simpl;
                try rewrite (Hother id Hid); reflexivity | ].
  all: split; [ repeat constructor | reflexivity ].
Qed.

(** X1 — every handler returns TRUE and is stateless: on any prior state it
    appends the same events and queued calls, which depend on the request
    alone.  Either it completes the invocation itself and queues nothing, or
    it completes nothing and queues exactly one call carrying the invocation;
    it never completes another invocation, and every call it logs is
    queued. *)
Theorem X1_handler_completes_or_forwards :
  forall invocation m,
  exists events calls,
    (forall w, runStateT (realtime_iface invocation m) w
               = Some (true, {| w_log := w_log w ++ events;
                                w_pending := w_pending w ++ calls |}))
    /\ (completions (inv_id invocation) events + List.length calls = 1)%nat
    /\ (forall id, id <> inv_id invocation -> completions id events = 0%nat)
    /\ Forall (fun call => pc_user_data call = invocation) calls
    /\ filter is_proxy_call events = map EvProxyCall calls.
Proof.
  intros invocation m. apply handler_effects.
Qed.

(** X1 at the sample sandbox's SetThreadRealtime for pid 42: nothing is
    completed by the handler, one call is queued, and invocation 3 is not
    touched. *)
Lemma X1_handler_completes_or_forwards_witness :
  3%nat <> inv_id sandboxed_invocation
  /\ exists events calls,
       runStateT (realtime_iface sandboxed_invocation
                    (MakeThreadRealtimeWithPID 42 7 10)) empty_world
       = Some (true, {| w_log := events; w_pending := calls |})
       /\ (completions 2 events + List.length calls = 1)%nat
       /\ completions 3 events = 0%nat.
Proof.
  split; [discriminate | ].
  destruct (X1_handler_completes_or_forwards sandboxed_invocation
              (MakeThreadRealtimeWithPID 42 7 10))
    as [events [calls [Hrun [Hone [Hnone _]]]]].
  exists events, calls.
  split; [exact (Hrun empty_world) | ].
  split; [exact Hone | ].
  apply Hnone. discriminate.
Defined.

(** X2 — GetProperty relays an error of the upstream call verbatim: the
    request is completed with that very error and no value. *)
Theorem X2_get_property_error_is_relayed :
  forall invocation name error log,
    run (serve invocation (GetProperty name) (GErr error))
        {| w_log := log; w_pending := [] |}
    = Some {| w_log := log ++ [EvProxyCall (get_property_call invocation name);
                               EvReturnGError (inv_id invocation) error];
              w_pending := [] |}.
Proof.
  intros invocation name error log.
  unfold_handlers. rewrite <- app_assoc. reflexivity.
Qed.

(** X3 — GetProperty accepts exactly the signed 32- and 64-bit integers: a
    wrapped value of either type is returned as a 64-bit integer, and every
    other wrapped value (unsigned integers, booleans, strings, a nested
    variant, a tuple) completes the request with the portal's generic
    failure; further children of the answer are ignored. *)
Theorem X3_get_property_accepts_signed_integers_only :
  forall invocation name child rest log,
  exists ev,
    run (serve invocation (GetProperty name)
           (GOk (GV_tuple (GV_variant child :: rest))))
        {| w_log := log; w_pending := [] |}
    = Some {| w_log := log ++ [EvProxyCall (get_property_call invocation name); ev];
              w_pending := [] |}
    /\ ((exists n, (child = GV_int64 n \/ child = GV_int32 n)
                   /\ ev = EvReturnValue (inv_id invocation) (GV_tuple [GV_int64 n]))
        \/ ((forall n, child <> GV_int64 n /\ child <> GV_int32 n)
            /\ ev = EvReturnGError (inv_id invocation) invalid_response_type)).
Proof.
  intros invocation name child rest log.
  unfold_handlers.
  destruct child; simpl;
    (eexists; split; [rewrite <- app_assoc; reflexivity | ]).
  2: left; exists n; split; [right | ]; reflexivity.
  3: left; exists n; split; [left | ]; reflexivity.
  all: right; split; [intros k; split; discriminate | reflexivity].
Qed.

(** X4 — the effects of one request are bounded by its kind: the pid mapping
    is asked once for a thread request of a sandboxed caller and never
    otherwise; a warning is logged exactly when that mapping fails (errors
    of RealtimeKit and unsupported property types are not logged); and
    exactly one call goes to RealtimeKit unless the mapping fails, in which
    case none does. *)
Theorem X4_effects_of_one_request :
  forall invocation m result log,
    reply_fits m result = true ->
    exists w',
      run (serve invocation m result) {| w_log := log; w_pending := [] |} = Some w'
      /\ count_events is_map_pids (w_log w')
         = (count_events is_map_pids log
            + if consults_mapping invocation m then 1 else 0)%nat
      /\ count_events is_warning (w_log w')
         = (count_events is_warning log
            + if mapping_fails invocation m then 1 else 0)%nat
      /\ count_events is_proxy_call (w_log w')
         = (count_events is_proxy_call log
            + if mapping_fails invocation m then 0 else 1)%nat.
Proof.
  intros invocation m result log Hfit.
  destruct m as [process thread priority | process thread priority | name];
    unfold consults_mapping, mapping_fails, mapping_succeeds; unfold_handlers.
  1, 2: destruct (xai_is_host (inv_app_info invocation)); simpl;
    [ | destruct (xai_map_pid (inv_app_info invocation) (to_pid_t process));
        simpl ];
    try (destruct result; simpl);
    (eexists; split; [reflexivity | ]; simpl;
     repeat rewrite <- app_assoc; unfold count_events;
     repeat rewrite filter_app; repeat rewrite length_app; simpl;
     repeat split; lia).
  destruct result as [response | error]; simpl.
  - unfold reply_fits in Hfit.
    destruct (g_variant_get_child_v response 0) as [child | ]; [ | discriminate ].
    simpl.
    destruct child; simpl;
      (eexists; split; [reflexivity | ]; simpl;
       repeat rewrite <- app_assoc; unfold count_events;
       repeat rewrite filter_app; repeat rewrite length_app; simpl;
       repeat split; lia).
  - eexists; split; [reflexivity | ]; simpl.
    repeat rewrite <- app_assoc; unfold count_events;
      repeat rewrite filter_app; repeat rewrite length_app; simpl;
      repeat split; lia.
Qed.

(** X4 at the sample sandbox asked for a pid it does not hold: one mapping
    query, one warning, no call to RealtimeKit. *)
Lemma X4_effects_of_one_request_witness :
  reply_fits (MakeThreadRealtimeWithPID 43 7 10) (GOk (GV_tuple [])) = true
  /\ exists w',
       run (serve sandboxed_invocation (MakeThreadRealtimeWithPID 43 7 10)
              (GOk (GV_tuple [])))
           {| w_log := []; w_pending := [] |} = Some w'
       /\ count_events is_map_pids (w_log w') = 1%nat
       /\ count_events is_warning (w_log w') = 1%nat
       /\ count_events is_proxy_call (w_log w') = 0%nat.
Proof.
  split; [reflexivity | ].
  exact (X4_effects_of_one_request sandboxed_invocation
           (MakeThreadRealtimeWithPID 43 7 10) (GOk (GV_tuple [])) [] eq_refl).
Defined.

(** X5 — only the process id is translated: whenever a thread handler
    forwards a request, the thread id reaches RealtimeKit exactly as the
    caller supplied it, for sandboxed callers too, and the only question put
    to the pid mapping is about the narrowed process id. *)
Theorem X5_thread_id_is_not_mapped :
  forall invocation process thread priority w,
    mapping_succeeds (inv_app_info invocation) process = true ->
    let asked := if xai_is_host (inv_app_info invocation)
                 then [] else [EvMapPids (to_pid_t process)] in
    (exists call,
        run (handle_make_thread_realtime_with_pid invocation process thread priority) w
        = Some {| w_log := w_log w ++ asked ++ [EvProxyCall call];
                  w_pending := w_pending w ++ [call] |}
        /\ thread_parameter (pc_parameters call) = Some thread)
    /\ (exists call,
        run (handle_make_thread_high_priority_with_pid invocation process thread priority) w
        = Some {| w_log := w_log w ++ asked ++ [EvProxyCall call];
                  w_pending := w_pending w ++ [call] |}
        /\ thread_parameter (pc_parameters call) = Some thread).
Proof.
  intros invocation process thread priority w Hmap asked. subst asked.
  unfold mapping_succeeds in Hmap.
  split; unfold_handlers;
    (destruct (xai_is_host (inv_app_info invocation)); simpl in Hmap;
     [ | destruct (xai_map_pid (inv_app_info invocation) (to_pid_t process));
         [ | discriminate ] ];
     simpl; eexists; (split; [repeat rewrite <- app_assoc; reflexivity | ]);
     reflexivity).
Qed.

(** X5 at the sample sandbox: pid 42 is mapped to 9001, thread 7 stays 7. *)
Lemma X5_thread_id_is_not_mapped_witness :
  mapping_succeeds (inv_app_info sandboxed_invocation) 42 = true
  /\ exists call,
       run (handle_make_thread_realtime_with_pid sandboxed_invocation 42 7 10)
           empty_world
       = Some {| w_log := [EvMapPids 42; EvProxyCall call]; w_pending := [call] |}
       /\ thread_parameter (pc_parameters call) = Some 7.
Proof.
  split; [reflexivity | ].
  exact (proj1 (X5_thread_id_is_not_mapped sandboxed_invocation 42 7 10
                  empty_world eq_refl)).
Defined.

Lemma to_pid_t_periodic (x k : Z) : to_pid_t (x + k * 2 ^ 32) = to_pid_t x.
Proof.
  unfold to_pid_t.
  replace (x + k * 2 ^ 32 + 2 ^ 31) with (x + 2 ^ 31 + k * 2 ^ 32) by lia.
  rewrite Z.mod_add by lia. reflexivity.
Qed.

(** X6 — process ids that differ by a multiple of 2^32 are the same request
    to the bridge: both thread handlers have exactly the same effects (same
    mapping query, same outbound call or same error) for processId and for
    processId + k * 2^32. *)
Theorem X6_process_ids_alias_modulo_2_32 :
  forall invocation process thread priority k w,
    run (handle_make_thread_realtime_with_pid invocation
           (process + k * 2 ^ 32) thread priority) w
    = run (handle_make_thread_realtime_with_pid invocation process thread priority) w
    /\ run (handle_make_thread_high_priority_with_pid invocation
              (process + k * 2 ^ 32) thread priority) w
       = run (handle_make_thread_high_priority_with_pid invocation process thread priority) w.
Proof.
  intros invocation process thread priority k w.
  unfold handle_make_thread_realtime_with_pid,
    handle_make_thread_high_priority_with_pid.
  rewrite to_pid_t_periodic. split; reflexivity.
Qed.

(** X7 — SetThreadHighPriority with priority q is, end to end and on every
    path (mapping failure included), the same as SetThreadRealtime with
    priority q mod 2^32: same effects, same completion. *)
Theorem X7_high_priority_is_realtime_modulo_2_32 :
  forall invocation process thread q result w,
    run (serve invocation (MakeThreadHighPriorityWithPID process thread q) result) w
    = run (serve invocation
             (MakeThreadRealtimeWithPID process thread (q mod 2 ^ 32)) result) w.
Proof.
  intros invocation process thread q result w.
  unfold serve, realtime_iface.
  rewrite !run_seq, high_priority_as_realtime. reflexivity.
Qed.

(** ** Several requests in flight *)

Lemma awaiting_app id (l l' : list ProxyCall) :
  awaiting id (l ++ l') = (awaiting id l + awaiting id l')%nat.
Proof.
  unfold awaiting. rewrite filter_app, length_app. reflexivity.
Qed.

Lemma awaiting_carried id invocation (calls : list ProxyCall) :
  Forall (fun call => pc_user_data call = invocation) calls ->
  awaiting id calls
  = if Nat.eqb (inv_id invocation) id then List.length calls else 0%nat.
Proof.
  unfold awaiting, carries.
  induction 1 as [ | call calls Hcall _ IH]; simpl.
  - destruct (Nat.eqb (inv_id invocation) id); reflexivity.
  - rewrite Hcall.
    destruct (Nat.eqb (inv_id invocation) id); simpl; rewrite IH; reflexivity.
Qed.

Lemma take_pending_awaiting id :
  forall pending k call rest,
    take_pending k pending = Some (call, rest) ->
    awaiting id pending
    = ((if carries id call then 1 else 0) + awaiting id rest)%nat.
Proof.
  induction pending as [ | c pending IH]; intros k call rest Htake.
  - destruct k; discriminate.
  - destruct k as [ | k]; simpl in Htake.
    + injection Htake as <- <-. unfold awaiting. simpl.
      destruct (carries id c); reflexivity.
    + destruct (take_pending k pending) as [[c' rest'] | ] eqn:Hrec;
        [ | discriminate ].
      injection Htake as <- <-.
      specialize (IH k c' rest' Hrec).
      unfold awaiting in *. simpl.
      destruct (carries id c), (carries id c'); simpl in *; lia.
Qed.

(** A callback that can decode its answer completes the invocation it
    carries, once, and touches nothing else. *)
Lemma callback_effects call result w :
  answer_fits call result = true ->
  exists ev,
    run (run_callback call result) w
    = Some {| w_log := w_log w ++ [ev]; w_pending := w_pending w |}
    /\ forall id, is_completion_of id ev = carries id call.
Proof.
  unfold answer_fits, carries. intros Hfit.
  unfold_handlers.
  destruct (pc_callback call); destruct result as [response | error]; simpl.
  1, 2, 4: eexists; split; [reflexivity | intros id; reflexivity].
  destruct (g_variant_get_child_v response 0) as [child | ]; [ | discriminate ].
  simpl.
  destruct child; simpl;
    (eexists; split; [reflexivity | intros id; reflexivity]).
Qed.

Lemma step_owed s w :
  step_fits s w = true ->
  exists w',
    run (step s) w = Some w'
    /\ forall id, owed id w' = (owed id w + if is_arrival_of id s then 1 else 0)%nat.
Proof.
  destruct s as [invocation m | k result]; intros Hfit.
  - destruct (handler_effects invocation m)
      as [events [calls [Hrun [Hone [Hnone [Hcarry _]]]]]].
    eexists. split.
    + unfold step. rewrite run_seq. unfold run. rewrite Hrun. reflexivity.
    + intros id. unfold owed, is_arrival_of. simpl.
      rewrite completions_app, awaiting_app, (awaiting_carried id invocation calls Hcarry).
      destruct (Nat.eqb_spec (inv_id invocation) id) as [<- | Hne].
      * lia.
      * rewrite (Hnone id) by congruence. lia.
  - unfold step, proxy_reply_to, step_fits in *.
    destruct (take_pending k (w_pending w)) as [[call rest] | ] eqn:Htake.
    + destruct (callback_effects call result
                  {| w_log := w_log w; w_pending := rest |} Hfit)
        as [ev [Hrun Hev]].
      eexists. split.
      * unfold run in *. simpl in *. rewrite Htake. simpl. exact Hrun.
      * intros id. unfold owed. simpl.
        rewrite completions_app, (take_pending_awaiting id _ _ _ _ Htake).
        unfold completions. simpl. rewrite (Hev id).
        destruct (carries id call); simpl; lia.
    + exists w. split.
      * unfold run. simpl. rewrite Htake. destruct w; reflexivity.
      * intros id. simpl. lia.
Qed.

Lemma main_loop_owed :
  forall steps w,
    trace_fits steps w = true ->
    exists w',
      run (main_loop steps) w = Some w'
      /\ forall id, owed id w' = (owed id w + arrivals id steps)%nat.
Proof.
  induction steps as [ | s steps IH]; intros w Hfit.
  - exists w. split; [destruct w; reflexivity | ].
    intros id. unfold arrivals. simpl. lia.
  - simpl in Hfit. apply andb_true_iff in Hfit. destruct Hfit as [Hs Hrest].
    destruct (step_owed s w Hs) as [w1 [Hrun1 Howed1]].
    rewrite Hrun1 in Hrest.
    destruct (IH w1 Hrest) as [w' [Hrun Howed]].
    exists w'. split.
    + change (main_loop (s :: steps)) with (step s ;; main_loop steps).
      rewrite run_seq, Hrun1. exact Hrun.
    + intros id. rewrite Howed, Howed1. unfold arrivals. simpl.
      destruct (is_arrival_of id s); simpl; lia.
Qed.

(** X8 — with any number of requests in flight and RealtimeKit's answers
    arriving in any order, nothing is lost or duplicated: after any trace of
    arrivals and answers (each answer decodable by the callback it reaches),
    the completions made for an invocation plus the pending calls that carry
    it equal what was owed before plus the requests that arrived for it.
    Once no call is pending, every invocation has been completed exactly as
    many times as it arrived. *)
Theorem X8_no_completion_lost_or_duplicated :
  forall steps w,
    trace_fits steps w = true ->
    exists w',
      run (main_loop steps) w = Some w'
      /\ (forall id, owed id w' = (owed id w + arrivals id steps)%nat)
      /\ (w_pending w' = [] ->
          forall id, completions id (w_log w')
                     = (owed id w + arrivals id steps)%nat).
Proof.
  intros steps w Hfit.
  destruct (main_loop_owed steps w Hfit) as [w' [Hrun Howed]].
  exists w'. split; [exact Hrun | split; [exact Howed | ]].
  intros Hdone id. rewrite <- Howed. unfold owed. rewrite Hdone.
  unfold awaiting. simpl. lia.
Qed.

(** X8 at two requests in flight answered in reverse order: a sandboxed
    caller's SetThreadRealtime, then a host caller's GetProperty; the
    property answer arrives first.  Each invocation is completed once. *)
Lemma X8_no_completion_lost_or_duplicated_witness :
  let steps :=
    [Incoming sandboxed_invocation (MakeThreadRealtimeWithPID 42 7 10);
     Incoming host_invocation (GetProperty "RTTimeUSecMax");
     Answer 1 (GOk (GV_tuple [GV_variant (GV_int64 200000)]));
     Answer 0 (GErr access_denied)] in
  trace_fits steps empty_world = true
  /\ exists w',
       run (main_loop steps) empty_world = Some w'
       /\ w_pending w' = []
       /\ completions 1 (w_log w') = 1%nat
       /\ completions 2 (w_log w') = 1%nat
       /\ completions 3 (w_log w') = 0%nat.
Proof.
  intros steps. split; [reflexivity | ].
  destruct (X8_no_completion_lost_or_duplicated steps empty_world eq_refl)
    as [w' [Hrun [_ Hdone]]].
  exists w'. split; [exact Hrun | ].
  assert (Hpending : w_pending w' = [])
    by (vm_compute in Hrun; injection Hrun as <-; reflexivity).
  split; [exact Hpending | ].
  repeat split; rewrite (Hdone Hpending); reflexivity.
Defined.

(** ** Start-up and tear-down *)

Ltac unfold_bootstrap :=
  unfold realtime_create, realtime_finalize, g_bus_get_sync,
    g_dbus_proxy_new_sync, boot_warning, boot_emit, g_object_new_realtime,
    realtime_init;
  simpl.

(** X9 — when the system bus is out of reach or the RealtimeKit proxy
    cannot be created, [realtime_create] returns NULL, leaves the static
    instance pointer as it was and logs exactly one warning, which ends with
    the message of the error that stopped it; after a bus failure the proxy
    is not even attempted. *)
Theorem X9_failed_startup_installs_nothing :
  forall sys connection p,
    startup_fails sys = true ->
    exists error prefix attempts,
      runState (realtime_create sys connection) p
      = (None,
         {| realtime := realtime p;
            boot_log := boot_log p ++ BootBusGet G_BUS_TYPE_SYSTEM :: attempts
                        ++ [BootWarning (String.append prefix (message error))] |})
      /\ ((sys_bus_get_sync sys G_BUS_TYPE_SYSTEM = GErr error
           /\ attempts = []
           /\ prefix = "Failed to connect to system bus for RealtimeKit: "%string)
          \/ (exists bus proxy,
                sys_bus_get_sync sys G_BUS_TYPE_SYSTEM = GOk bus
                /\ sys_proxy_new_sync sys proxy = Some error
                /\ proxy_connection proxy = bus
                /\ attempts = [BootProxyNew proxy]
                /\ prefix = "Failed to create RealtimeKit proxy: "%string)).
Proof.
  intros sys connection p Hfail. unfold startup_fails in Hfail.
  unfold_bootstrap.
  destruct (sys_bus_get_sync sys G_BUS_TYPE_SYSTEM) as [bus | error]; simpl.
  - match type of Hfail with
    | match sys_proxy_new_sync sys ?proxy with _ => _ end = true =>
        destruct (sys_proxy_new_sync sys proxy) as [error | ] eqn:Hproxy;
        [ | discriminate ];
        exists error, "Failed to create RealtimeKit proxy: "%string,
               [BootProxyNew proxy]
    end.
    simpl. split.
    + repeat rewrite <- app_assoc. reflexivity.
    + right. exists bus. eexists.
      split; [reflexivity | ]. split; [exact Hproxy | ]. repeat split.
  - exists error, "Failed to connect to system bus for RealtimeKit: "%string, [].
    simpl. split.
    + repeat rewrite <- app_assoc. reflexivity.
    + left. repeat split.
Qed.

(** X9 where the system bus is there but RealtimeKit is not. *)
Lemma X9_failed_startup_installs_nothing_witness :
  startup_fails system_without_rtkit = true
  /\ fst (runState (realtime_create system_without_rtkit sample_session_bus)
            fresh_process) = None
  /\ realtime (snd (runState (realtime_create system_without_rtkit sample_session_bus)
                      fresh_process)) = None.
Proof.
  split; [reflexivity | ].
  destruct (X9_failed_startup_installs_nothing system_without_rtkit
              sample_session_bus fresh_process eq_refl)
    as [error [prefix [attempts [Hrun _]]]].
  rewrite Hrun. split; reflexivity.
Defined.

(** X10 — when both start-up calls succeed, [realtime_create] logs no
    warning, returns the new instance and stores it in the static pointer.
    The instance announces interface version 1 and holds a proxy for
    org.freedesktop.RealtimeKit1 at /org/freedesktop/RealtimeKit1 on the
    system bus (the connection passed in is not used), created without
    loading properties or connecting signals and without auto-start at
    construction, but with auto-start on method calls left enabled. *)
Theorem X10_successful_startup_installs_proxy :
  forall sys connection p,
    startup_fails sys = false ->
    exists bus proxy self,
      runState (realtime_create sys connection) p
      = (Some self,
         {| realtime := Some self;
            boot_log := boot_log p ++ [BootBusGet G_BUS_TYPE_SYSTEM;
                                       BootProxyNew proxy] |})
      /\ sys_bus_get_sync sys G_BUS_TYPE_SYSTEM = GOk bus
      /\ version self = 1
      /\ rtkit_proxy self = Some proxy
      /\ proxy_connection proxy = bus
      /\ proxy_name proxy = "org.freedesktop.RealtimeKit1"%string
      /\ proxy_object_path proxy = "/org/freedesktop/RealtimeKit1"%string
      /\ proxy_interface_name proxy = "org.freedesktop.RealtimeKit1"%string
      /\ In G_DBUS_PROXY_FLAGS_DO_NOT_LOAD_PROPERTIES (proxy_flags proxy)
      /\ In G_DBUS_PROXY_FLAGS_DO_NOT_CONNECT_SIGNALS (proxy_flags proxy)
      /\ In G_DBUS_PROXY_FLAGS_DO_NOT_AUTO_START_AT_CONSTRUCTION (proxy_flags proxy)
      /\ ~ In G_DBUS_PROXY_FLAGS_DO_NOT_AUTO_START (proxy_flags proxy).
Proof.
  intros sys connection p Hok. unfold startup_fails in Hok.
  unfold_bootstrap.
  destruct (sys_bus_get_sync sys G_BUS_TYPE_SYSTEM) as [bus | error];
    [ | discriminate ].
  simpl.
  match type of Hok with
  | match sys_proxy_new_sync sys ?proxy with _ => _ end = false =>
      destruct (sys_proxy_new_sync sys proxy) as [error | ] eqn:Hproxy;
      [ discriminate | ];
      exists bus, proxy
  end.
  eexists. simpl. split.
  - repeat rewrite <- app_assoc. reflexivity.
  - simpl. repeat split; auto.
    intros [H | [H | [H | []]]]; discriminate.
Qed.

(** X10 on a working system, called with the session bus connection. *)
Lemma X10_successful_startup_installs_proxy_witness :
  startup_fails working_system = false
  /\ exists self proxy,
       fst (runState (realtime_create working_system sample_session_bus)
              fresh_process) = Some self
       /\ version self = 1
       /\ rtkit_proxy self = Some proxy
       /\ proxy_connection proxy = sample_system_bus.
Proof.
  split; [reflexivity | ].
  destruct (X10_successful_startup_installs_proxy working_system
              sample_session_bus fresh_process eq_refl)
    as [bus [proxy [self [Hrun [Hbus [Hversion [Hproxy [Hconn _]]]]]]]].
  exists self, proxy. rewrite Hrun.
  repeat split; try assumption.
  rewrite Hconn. simpl in Hbus. congruence.
Defined.

(** X11 — tear-down releases what start-up took: finalizing the instance
    that [realtime_create] returned drops the reference to its proxy exactly
    once and clears the field, and finalizing an instance whose field is
    already clear releases nothing. *)
Theorem X11_finalize_releases_the_proxy_once :
  forall sys connection p self p1,
    runState (realtime_create sys connection) p = (Some self, p1) ->
    exists proxy,
      rtkit_proxy self = Some proxy
      /\ count_occ_boot is_proxy_new (boot_log p1)
         = S (count_occ_boot is_proxy_new (boot_log p))
      /\ runState (realtime_finalize self) p1
         = ({| version := version self; rtkit_proxy := None |},
            {| realtime := realtime p1;
               boot_log := boot_log p1 ++ [BootUnref proxy] |})
      /\ (forall p2,
            runState (realtime_finalize
                        {| version := version self; rtkit_proxy := None |}) p2
            = ({| version := version self; rtkit_proxy := None |}, p2)).
Proof.
  intros sys connection p self p1.
  unfold_bootstrap.
  destruct (sys_bus_get_sync sys G_BUS_TYPE_SYSTEM) as [bus | error]; simpl;
    [ | discriminate ].
  match goal with
  | |- context [sys_proxy_new_sync sys ?proxy] =>
      destruct (sys_proxy_new_sync sys proxy) as [error | ] eqn:Hproxy; simpl;
      [ discriminate | ];
      intros Hrun; injection Hrun as <- <-; exists proxy
  end.
  simpl. split; [reflexivity | ].
  split.
  - unfold count_occ_boot. repeat rewrite <- app_assoc.
    rewrite filter_app, length_app. simpl. lia.
  - split; [reflexivity | ].
    intros p2. destruct p2. reflexivity.
Qed.

(** X11 on a working system. *)
Lemma X11_finalize_releases_the_proxy_once_witness :
  exists self p1 proxy,
    runState (realtime_create working_system sample_session_bus) fresh_process
    = (Some self, p1)
    /\ rtkit_proxy self = Some proxy
    /\ filter is_unref
         (boot_log (snd (runState (realtime_finalize self) p1)))
       = [BootUnref proxy].
Proof.
  eexists. eexists.
  destruct (X11_finalize_releases_the_proxy_once working_system sample_session_bus
              fresh_process _ _ eq_refl)
    as [proxy [Hproxy [_ [Hfin _]]]].
  exists proxy. split; [reflexivity | ].
  split; [exact Hproxy | ].
  rewrite Hfin. simpl. reflexivity.
Defined.
